(** * core/models.py: the custom user model of dockerise_django

    The module declares one class,

      class User(AbstractUser):
          (docstring) Custom user model for dockerise_django project
          class Meta:
              db_table = 'dd_users'
          def __str__(self) -> str:
              return self.username

    The development below embeds the class statement (its namespace and
    the way attribute lookup falls through to the base class), the
    instances (records living in a heap, read through references) and
    the [__str__] method (a computation in a state-and-exception monad).
    Everything the class inherits from [django.contrib.auth.models] and
    [django.db.models] is external to the module: the base class
    namespace, the base class field list and the database are the
    members of the class [Framework], and what the framework promises
    about them is the class [Contract], a hypothesis of the results
    that need it. *)

From Stdlib Require Import ZArith Ascii String.
From stdpp Require Import base option list strings.

Open Scope string_scope.

(** ** Python values and exceptions *)

Inductive pyval :=
| PyNone
| PyBool (b : bool)
| PyInt (z : Z)
| PyStr (s : string)
| PyRef (r : nat).

#[global] Instance pyval_eq_dec : EqDecision pyval.
Proof. solve_decision. Defined.

Inductive exn :=
| AttributeError
| TypeError
| ReferenceError
| IntegrityError
| DoesNotExist.

#[global] Instance exn_eq_dec : EqDecision exn.
Proof. solve_decision. Defined.

(** ** Instances

    A [User] instance carries the attributes the base classes declare
    ([AbstractBaseUser], [PermissionsMixin], [AbstractUser]) and the
    primary key the framework gives every concrete model; the class
    body adds none.  [id] is [None] until the instance is saved;
    timestamps are seconds, the two relations are the keys of the
    related rows. *)

Record User := mkUser {
  id : option Z;
  password : string;
  last_login : option Z;
  is_superuser : bool;
  groups : list Z;
  user_permissions : list Z;
  username : string;
  first_name : string;
  last_name : string;
  email : string;
  is_staff : bool;
  is_active : bool;
  date_joined : Z
}.

Definition set_username (s : string) (o : User) : User :=
  mkUser (id o) (password o) (last_login o) (is_superuser o) (groups o)
         (user_permissions o) s (first_name o) (last_name o) (email o)
         (is_staff o) (is_active o) (date_joined o).

Definition set_id (k : option Z) (o : User) : User :=
  mkUser k (password o) (last_login o) (is_superuser o) (groups o)
         (user_permissions o) (username o) (first_name o) (last_name o)
         (email o) (is_staff o) (is_active o) (date_joined o).

(** A model field as Django's metaclass records it: the name it is
    bound to in the class body and the two flags that matter for
    identity and uniqueness. *)
Record Field := mkField {
  field_name : string;
  primary_key : bool;
  unique : bool
}.

#[global] Instance Field_eq_dec : EqDecision Field.
Proof. solve_decision. Defined.

(** ** The interpreter state and the monad of Python computations

    Instances are objects on a heap, named by references; a method
    receives [self] as a reference.  The database behind the
    framework's persistence layer is the second component of the state;
    its type belongs to the framework. *)

Section State.

Variable DB : Type.

Record World := mkWorld {
  heap : list User;
  db : DB
}.

(** A computation may raise and may change the state; the state it
    leaves is returned in both cases. *)
Definition Py (A : Type) : Type := World -> (exn + A) * World.

Definition ret {A} (a : A) : Py A := fun w => (inr a, w).

Definition raise {A} (e : exn) : Py A := fun w => (inl e, w).

Definition bind {A B} (c : Py A) (k : A -> Py B) : Py B :=
  fun w =>
    match c w with
    | (inr a, w') => k a w'
    | (inl e, w') => (inl e, w')
    end.

(** [User(...)] with keyword arguments: a new object on the heap;
    [init] holds the value of every attribute after [Model.__init__]
    has taken the keyword arguments and the field defaults. *)
Definition construct (init : User) : Py nat :=
  fun w => (inr (length (heap w)), mkWorld (heap w ++ [init]) (db w)).

Definition deref (self : nat) : Py User :=
  fun w =>
    match heap w !! self with
    | Some o => (inr o, w)
    | None => (inl ReferenceError, w)
    end.

(** [self.<field>] *)
Definition getattr {A} (self : nat) (field : User -> A) : Py A :=
  bind (deref self) (fun o => ret (field o)).

(** [self.<field> = v], with [upd] the record update *)
Definition setattr (self : nat) (upd : User -> User) : Py unit :=
  fun w =>
    match heap w !! self with
    | Some o => (inr tt, mkWorld (<[self := upd o]> (heap w)) (db w))
    | None => (inl ReferenceError, w)
    end.

(** A statement of the database driver run from Python. *)
Definition execute {A} (stmt : DB -> exn + (A * DB)) : Py A :=
  fun w =>
    match stmt (db w) with
    | inr (a, d) => (inr a, mkWorld (heap w) d)
    | inl e => (inl e, w)
    end.

(** ** The class statement

    A method takes [self] and its positional arguments. *)
Definition method : Type := nat -> list pyval -> Py pyval.

(** What a name of a class namespace is bound to: a plain value, an
    inner class (its own bindings), a function, or a model field with
    its flags. *)
Inductive attr :=
| Value (v : pyval)
| InnerClass (body : list (string * pyval))
| Function (f : method)
| FieldDecl (pk uq : bool).

(** [def __str__(self) -> str: return self.username] *)
Definition __str__ : method :=
  fun self args =>
    match args with
    | [] => bind (getattr self username) (fun s => ret (PyStr s))
    | _ :: _ => raise TypeError
    end.

(** [class Meta: db_table = 'dd_users'] *)
Definition Meta : list (string * pyval) :=
  [("db_table", PyStr "dd_users")].

(** The namespace the class statement builds, in the order of the
    source: Python sets [__module__] and [__qualname__] before it runs
    the body, the docstring is bound to [__doc__]. *)
Definition User_namespace : list (string * attr) :=
  [("__module__", Value (PyStr "core.models"));
   ("__qualname__", Value (PyStr "User"));
   ("__doc__", Value (PyStr "Custom user model for dockerise_django project"));
   ("Meta", InnerClass Meta);
   ("__str__", Function __str__)].

End State.

Arguments mkWorld {DB} _ _.
Arguments heap {DB} _.
Arguments db {DB} _.
Arguments ret {DB A} _ _.
Arguments raise {DB A} _ _.
Arguments bind {DB A B} _ _ _.
Arguments construct {DB} _ _.
Arguments deref {DB} _ _.
Arguments getattr {DB A} _ _ _.
Arguments setattr {DB} _ _ _.
Arguments execute {DB A} _ _.
Arguments Value {DB} _.
Arguments InnerClass {DB} _.
Arguments Function {DB} _.
Arguments FieldDecl {DB} _ _.
Arguments __str__ {DB} _ _ _.
Arguments User_namespace {DB}.

Notation "'let*' x ':=' c 'in' k" := (bind c (fun x => k))
  (at level 10, x name, c at level 100, k at level 200).

Fixpoint assoc {A} (name : string) (ns : list (string * A)) : option A :=
  match ns with
  | [] => None
  | (k, a) :: ns' => if decide (k = name) then Some a else assoc name ns'
  end.

(** The value a row holds in the column [c]; a missing value is SQL's
    NULL, which is also what a name that is no column gives. *)
Definition column (c : string) (o : User) : pyval :=
  if decide (c = "id") then from_option PyInt PyNone (id o)
  else if decide (c = "password") then PyStr (password o)
  else if decide (c = "last_login") then from_option PyInt PyNone (last_login o)
  else if decide (c = "is_superuser") then PyBool (is_superuser o)
  else if decide (c = "username") then PyStr (username o)
  else if decide (c = "first_name") then PyStr (first_name o)
  else if decide (c = "last_name") then PyStr (last_name o)
  else if decide (c = "email") then PyStr (email o)
  else if decide (c = "is_staff") then PyBool (is_staff o)
  else if decide (c = "is_active") then PyBool (is_active o)
  else if decide (c = "date_joined") then PyInt (date_joined o)
  else PyNone.

(** ** The framework

    What [from django.contrib.auth.models import AbstractUser] brings
    into the module: attribute lookup on the base class along its own
    method resolution order, the fields the base classes declare, and
    the database the models are stored in.  A table is named by its
    identifier; an insert and an update are told the table's unique
    columns. *)
Class Framework := {
  DB : Type;
  AbstractUser_getattr : string -> option (attr DB);
  AbstractUser_fields : list Field;
  (** INSERT: the key of the new row, the row's own [id] when it has one *)
  db_insert : string -> list string -> User -> DB -> exn + (Z * DB);
  (** UPDATE ... WHERE id = k: whether a row matched *)
  db_update : string -> list string -> Z -> User -> DB -> exn + (bool * DB);
  (** SELECT ... WHERE id = k *)
  db_select : string -> Z -> DB -> option User
}.

Section Model.

Context {F : Framework}.

(** Attribute lookup on a class with namespace [ns] whose one base is
    [AbstractUser]: the class's own namespace first, then the base. *)
Definition class_getattr (ns : list (string * attr DB)) (name : string)
  : option (attr DB) :=
  match assoc name ns with
  | Some a => Some a
  | None => AbstractUser_getattr name
  end.

(** Lookup on [User] of a name that a class body binds: the class
    statement of [User] first, then the base class.  What the
    metaclass of the framework builds for each model class ([_meta],
    the manager, the field descriptors, the exceptions of the model)
    is no binding of a class body and is not looked up here. *)
Definition User_getattr : string -> option (attr DB) :=
  class_getattr User_namespace.

(** Calling the attribute [name] that [lookup] finds on the class of
    [self]. *)
Definition call_method (lookup : string -> option (attr DB)) (name : string)
  (self : nat) (args : list pyval) : Py DB pyval :=
  match lookup name with
  | Some (Function f) => f self args
  | Some _ => raise TypeError
  | None => raise AttributeError
  end.

(** The built-in [str(obj)] on a [User] instance: it calls the
    [__str__] of the class and accepts a string only. *)
Definition str (self : nat) : Py DB string :=
  let* v := call_method User_getattr "__str__" self [] in
  match v with
  | PyStr s => ret s
  | _ => raise TypeError
  end.

(** ** The table of the model

    [str.lower] on the class name, for ASCII letters. *)
Definition lower_ascii (c : ascii) : ascii :=
  let n := nat_of_ascii c in
  if (65 <=? n)%nat && (n <=? 90)%nat then ascii_of_nat (n + 32) else c.

Fixpoint lower (s : string) : string :=
  match s with
  | EmptyString => EmptyString
  | String c s' => String (lower_ascii c) (lower s')
  end.

(** The name the framework gives the table of a model that configures
    none: the label of the application, an underscore, the lower-cased
    class name.  (The framework shortens a default name that is longer
    than the database allows; the names here are short.) *)
Definition default_db_table (app_label object_name : string) : string :=
  String.append app_label (String.append "_" (lower object_name)).

(** [Options]: the [db_table] of [Meta] when the class has one that is
    not empty, the default name otherwise. *)
Definition Options_db_table (app_label object_name : string)
  (ns : list (string * attr DB)) : string :=
  match assoc "Meta" ns with
  | Some (InnerClass body) =>
      match assoc "db_table" body with
      | Some (PyStr t) =>
          if decide (t = EmptyString)
          then default_db_table app_label object_name
          else t
      | _ => default_db_table app_label object_name
      end
  | _ => default_db_table app_label object_name
  end.

(** [User._meta.db_table], in an application labelled [app_label] *)
Definition User_db_table (app_label : string) : string :=
  Options_db_table app_label "User" User_namespace.

(** [self._meta.db_table]: an instance reaches the options of its
    class. *)
Definition instance_db_table (app_label : string) (self : User) : string :=
  User_db_table app_label.

(** ** The fields of the model

    The fields a class body declares, under the names it binds them
    to. *)
Fixpoint local_fields (ns : list (string * attr DB)) : list Field :=
  match ns with
  | [] => []
  | (name, FieldDecl pk uq) :: ns' => mkField name pk uq :: local_fields ns'
  | _ :: ns' => local_fields ns'
  end.

(** The names a namespace binds. *)
Definition bound_names (ns : list (string * attr DB)) : list string :=
  ns.*1.

(** The fields of the abstract base that the class takes over: every
    one whose name the class body does not bind again. *)
Definition inherited_fields (ns : list (string * attr DB))
  (base : list Field) : list Field :=
  filter (fun f => field_name f ∉ bound_names ns) base.

(** The key the framework adds to a concrete model that declares
    none. *)
Definition auto_pk : Field := mkField "id" true true.

Definition with_pk (fs : list Field) : list Field :=
  if existsb primary_key fs then fs else auto_pk :: fs.

(** The fields of the concrete model with namespace [ns] over a base
    with the fields [base]. *)
Definition model_fields (ns : list (string * attr DB)) (base : list Field)
  : list Field :=
  with_pk (inherited_fields ns base ++ local_fields ns).

Definition User_fields : list Field :=
  model_fields User_namespace AbstractUser_fields.

(** The columns of the table that carry a uniqueness constraint. *)
Definition unique_columns (fs : list Field) : list string :=
  field_name <$> filter (fun f => unique f = true ∨ primary_key f = true) fs.

(** ** Persistence, as the base class and its manager provide it

    [Model.save]: an instance without a key is inserted and receives
    the key of its row; an instance with a key is updated, and inserted
    when no row has that key. *)
Definition Model_save (table : string) (uq : list string) (self : nat)
  : Py DB unit :=
  let* o := deref self in
  match id o with
  | None =>
      let* k := execute (db_insert table uq o) in
      setattr self (set_id (Some k))
  | Some k =>
      let* hit := execute (db_update table uq k o) in
      if (hit : bool) then ret tt
      else let* _ := execute (db_insert table uq o) in ret tt
  end.

(** [Manager.create]: build the instance, insert it, return it. *)
Definition Manager_create (table : string) (uq : list string) (init : User)
  : Py DB nat :=
  let* self := construct init in
  let* o := deref self in
  let* k := execute (db_insert table uq o) in
  let* _ := setattr self (set_id (Some k)) in
  ret self.

(** [Manager.get(pk=k)]: a new instance from the row with the key. *)
Definition Manager_get (table : string) (k : Z) : Py DB nat :=
  fun w =>
    match db_select table k (db w) with
    | Some row => construct row w
    | None => raise DoesNotExist w
    end.

(** The three on [User]: inherited, and bound to the table and the
    fields of [User]. *)
Definition User_save (app_label : string) : nat -> Py DB unit :=
  Model_save (User_db_table app_label) (unique_columns User_fields).

Definition User_objects_create (app_label : string) : User -> Py DB nat :=
  Manager_create (User_db_table app_label) (unique_columns User_fields).

Definition User_objects_get (app_label : string) : Z -> Py DB nat :=
  Manager_get (User_db_table app_label).

(** ** Abstract models

    Python's truth value of an object. *)
Definition truthy (v : pyval) : bool :=
  match v with
  | PyNone => false
  | PyBool b => b
  | PyInt z => negb (z =? 0)%Z
  | PyStr s => negb (bool_decide (s = EmptyString))
  | PyRef _ => true
  end.

(** Whether a class statement declares its model abstract: the
    [abstract] of its own [Meta]; a class without one, or with a [Meta]
    that does not set it, is concrete, whatever its base is. *)
Definition Meta_abstract (meta : list (string * pyval)) : bool :=
  match assoc "abstract" meta with
  | Some v => truthy v
  | None => false
  end.

(** [cls.objects]: the manager descriptor of the base class answers
    for the class it is reached through, with [AttributeError] when
    that class is abstract and with the manager bound to the class
    (its table, its unique columns) otherwise. *)
Definition ManagerDescriptor_get (abstract : bool) (table : string)
  (uq : list string) : exn + (string * list string) :=
  if abstract then inl AttributeError else inr (table, uq).

(** [cls.objects.create(...)] *)
Definition class_objects_create (abstract : bool) (table : string)
  (uq : list string) (init : User) : Py DB nat :=
  match ManagerDescriptor_get abstract table uq with
  | inr (t, u) => Manager_create t u init
  | inl e => raise e
  end.

End Model.

(** ** What the framework promises

    The base class declares [username] unique; the database enforces
    the uniqueness constraints of a table on insert (a NULL never
    collides), stores a row as it is given, under the key it returns,
    and keeps the key a row brings. *)
Class Contract (F : Framework) : Prop := {
  username_unique : mkField "username" false true ∈ AbstractUser_fields;
  insert_unique :
    forall t uq row d c k row',
      c ∈ uq ->
      db_select t k d = Some row' ->
      column c row <> PyNone ->
      column c row' = column c row ->
      db_insert t uq row d = inl IntegrityError;
  select_insert :
    forall t uq row d k d',
      db_insert t uq row d = inr (k, d') ->
      db_select t k d' = Some (set_id (Some k) row);
  insert_keeps_id :
    forall t uq row d k d' k0,
      db_insert t uq row d = inr (k, d') ->
      id row = Some k0 -> k = k0;
  select_update :
    forall t uq k row d d',
      db_update t uq k row d = inr (true, d') ->
      db_select t k d' = Some (set_id (Some k) row)
}.

(** ** A framework in memory

    A database that keeps the rows of all tables in one list, newest
    first, each with its table and key; the base class as Django
    declares it.  It shows that the contract can be met, and it is
    what the results are evaluated on. *)
Module Mem.

Definition table_rows : Type := list (string * (Z * User)).

Fixpoint select (t : string) (k : Z) (d : table_rows) : option User :=
  match d with
  | [] => None
  | (t', (k', row)) :: d' =>
      if decide (t' = t ∧ k' = k) then Some row else select t k d'
  end.

(** Whether [row] collides with [row'] on one of the unique columns. *)
Definition collides (uq : list string) (row row' : User) : bool :=
  existsb
    (fun c => bool_decide (column c row ≠ PyNone ∧ column c row' = column c row))
    uq.

Definition conflict (t : string) (uq : list string) (row : User)
  (d : table_rows) : bool :=
  existsb (fun x => bool_decide (x.1 = t) && collides uq row x.2.2) d.

(** The next key of an auto-incremented column. *)
Fixpoint next_key (t : string) (d : table_rows) : Z :=
  match d with
  | [] => 1
  | (t', (k', _)) :: d' =>
      if decide (t' = t) then Z.max (k' + 1) (next_key t d')
      else next_key t d'
  end.

Definition insert (t : string) (uq : list string) (row : User)
  (d : table_rows) : exn + (Z * table_rows) :=
  let k := default (next_key t d) (id row) in
  let row' := set_id (Some k) row in
  if conflict t uq row' d then inl IntegrityError
  else inr (k, (t, (k, row')) :: d).

(** The rows other than the one with key [k] of table [t]. *)
Definition others (t : string) (k : Z) (d : table_rows) : table_rows :=
  filter (fun x => ¬ (x.1 = t ∧ x.2.1 = k)) d.

Definition update (t : string) (uq : list string) (k : Z) (row : User)
  (d : table_rows) : exn + (bool * table_rows) :=
  match select t k d with
  | None => inr (false, d)
  | Some _ =>
      let row' := set_id (Some k) row in
      if conflict t uq row' (others t k d) then inl IntegrityError
      else inr (true, (t, (k, row')) :: others t k d)
  end.

(** The fields of [AbstractBaseUser], [PermissionsMixin] and
    [AbstractUser], in the order of their declaration. *)
Definition fields : list Field :=
  [mkField "password" false false;
   mkField "last_login" false false;
   mkField "is_superuser" false false;
   mkField "groups" false false;
   mkField "user_permissions" false false;
   mkField "username" false true;
   mkField "first_name" false false;
   mkField "last_name" false false;
   mkField "email" false false;
   mkField "is_staff" false false;
   mkField "is_active" false false;
   mkField "date_joined" false false].

(** The database alone, under a base class that binds nothing yet:
    what the [save] of the base class runs on. *)
Definition storage : Framework := {|
  DB := table_rows;
  AbstractUser_getattr := fun _ => None;
  AbstractUser_fields := fields;
  db_insert := insert;
  db_update := update;
  db_select := select
|}.

(** [Model.save] without arguments.  The method finds the table and
    the unique columns in the options of the class of [self]; the
    instances on the heap are instances of [User], installed in the
    application [core]. *)
Definition save : method table_rows :=
  fun self args =>
    match args with
    | [] => let* _ := User_save (F := storage) "core" self in ret PyNone
    | _ :: _ => raise TypeError
    end.

(** Three more of the functions of the base class: [get_username] and
    the [__str__] of [AbstractBaseUser], which calls it, and the
    [get_short_name] of [AbstractUser], which returns the first name.
    None takes an argument besides [self]. *)
Definition get_username : method table_rows :=
  fun self args =>
    match args with
    | [] => let* s := getattr self username in ret (PyStr s)
    | _ :: _ => raise TypeError
    end.

Definition get_short_name : method table_rows :=
  fun self args =>
    match args with
    | [] => let* s := getattr self first_name in ret (PyStr s)
    | _ :: _ => raise TypeError
    end.

Definition base_getattr (name : string) : option (attr table_rows) :=
  if decide (name = "get_username") then Some (Function get_username)
  else if decide (name = "__str__") then Some (Function get_username)
  else if decide (name = "get_short_name") then Some (Function get_short_name)
  else if decide (name = "save") then Some (Function save)
  else None.

(** The [Meta] of the class statement of [AbstractUser]. *)
Definition base_Meta : list (string * pyval) :=
  [("verbose_name", PyStr "user");
   ("verbose_name_plural", PyStr "users");
   ("abstract", PyBool true)].

#[global] Instance framework : Framework := {
  DB := table_rows;
  AbstractUser_getattr := base_getattr;
  AbstractUser_fields := fields;
  db_insert := insert;
  db_update := update;
  db_select := select
}.

(** [User(username=u)] at time [now]: the defaults of the fields for
    everything else. *)
Definition defaults (now : Z) : User :=
  mkUser None EmptyString None false [] [] EmptyString EmptyString
         EmptyString EmptyString false true now.

Definition empty : World table_rows := mkWorld [] [].

(** [AbstractUser.objects.create(...)], were the base class asked to
    create a user itself: its table would be the default one of the
    application [auth]. *)
Definition base_objects_create (init : User) : Py table_rows nat :=
  class_objects_create (Meta_abstract base_Meta)
    (default_db_table "auth" "AbstractUser") (unique_columns fields) init.

End Mem.

(** * Results *)

(** ** The framework in memory meets the contract *)

Lemma column_set_id (c : string) (k : Z) (row : User) :
  column c row <> PyNone ->
  column c (set_id (Some (default k (id row))) row) = column c row.
Proof.
  unfold column. intros H.
  destruct (decide (c = "id")) as [->|Hc]; [|reflexivity].
  simpl in *. destruct (id row); simpl in *; [reflexivity|congruence].
Qed.

Lemma Mem_collides_intro (uq : list string) (c : string) (row row' : User) :
  c ∈ uq -> column c row <> PyNone -> column c row' = column c row ->
  Mem.collides uq row row' = true.
Proof.
  intros Hc Hn He. unfold Mem.collides.
  induction uq as [|c' uq' IH]; [inversion Hc|].
  simpl. apply elem_of_cons in Hc as [->|Hc].
  - rewrite bool_decide_eq_true_2; [reflexivity|split; assumption].
  - rewrite (IH Hc). apply orb_true_r.
Qed.

Lemma Mem_conflict_intro (t : string) (uq : list string) (row row' : User)
  (k : Z) (d : Mem.table_rows) :
  Mem.select t k d = Some row' ->
  Mem.collides uq row row' = true ->
  Mem.conflict t uq row d = true.
Proof.
  intros Hs Hc. unfold Mem.conflict.
  induction d as [|[t' [k' r]] d IH]; simpl in *; [discriminate|].
  destruct (decide (t' = t ∧ k' = k)) as [[-> ->]|_].
  - injection Hs as ->. rewrite bool_decide_eq_true_2 by reflexivity.
    simpl. rewrite Hc. reflexivity.
  - rewrite (IH Hs). apply orb_true_r.
Qed.

Lemma Mem_contract : Contract Mem.framework.
Proof.
  split; simpl.
  - unfold Mem.fields. do 5 apply list_elem_of_further. apply list_elem_of_here.
  - intros t uq row d c k row' Hc Hs Hn He. unfold Mem.insert.
    rewrite (Mem_conflict_intro t uq _ row' k d Hs); [reflexivity|].
    apply (Mem_collides_intro uq c); [assumption| |].
    + rewrite column_set_id; assumption.
    + rewrite column_set_id; assumption.
  - intros t uq row d k d'. unfold Mem.insert.
    destruct (Mem.conflict _ _ _ _); [discriminate|].
    intros [= <- <-]. simpl.
    rewrite decide_True; [reflexivity|split; reflexivity].
  - intros t uq row d k d' k0. unfold Mem.insert.
    destruct (Mem.conflict _ _ _ _); [discriminate|].
    intros [= <- _] ->. reflexivity.
  - intros t uq k row d d'. unfold Mem.update.
    destruct (Mem.select t k d); [|discriminate].
    destruct (Mem.conflict _ _ _ _); [discriminate|].
    intros [= <-]. simpl.
    rewrite decide_True; [reflexivity|split; reflexivity].
Qed.

(** ** The string representation *)

Section Str.

Context {F : Framework}.

Lemma deref_live (w : World DB) (self : nat) (o : User) :
  heap w !! self = Some o -> deref self w = (inr o, w).
Proof. intros H. unfold deref. rewrite H. reflexivity. Qed.

Lemma getattr_live {A} (w : World DB) (self : nat) (o : User)
  (field : User -> A) :
  heap w !! self = Some o -> getattr self field w = (inr (field o), w).
Proof.
  intros H. unfold getattr, bind. rewrite (deref_live w self o H).
  reflexivity.
Qed.

Lemma str_method_live (w : World DB) (self : nat) (o : User) :
  heap w !! self = Some o ->
  __str__ self [] w = (inr (PyStr (username o)), w).
Proof.
  intros H. unfold __str__, bind. rewrite (getattr_live w self o _ H).
  reflexivity.
Qed.

(** [str] reaches the [__str__] of the class body, not the one of the
    base class. *)
Lemma User_getattr_str : User_getattr "__str__" = Some (Function __str__).
Proof. reflexivity. Qed.

Lemma str_live (w : World DB) (self : nat) (o : User) :
  heap w !! self = Some o -> str self w = (inr (username o), w).
Proof.
  intros H. unfold str, call_method. rewrite User_getattr_str.
  unfold bind. rewrite (str_method_live w self o H). reflexivity.
Qed.

Lemma construct_live (init : User) (w : World DB) :
  heap (construct init w).2 !! length (heap w) = Some init.
Proof. simpl. apply list_lookup_middle. reflexivity. Qed.

End Str.

(** C1: constructing a [User] whose username is [u] (whatever the other
    attributes are, and whatever the string [u] is, so for every valid
    username) and rendering the new instance with [str] yields exactly
    [u]; the only change of the state is the new instance. *)
Theorem str_of_new_User_is_username `{F : Framework}
  (init : User) (u : string) (w : World DB) :
  (let* self := construct (set_username u init) in str self) w
  = (inr u, mkWorld (heap w ++ [set_username u init]) (db w)).
Proof.
  unfold bind at 1.
  assert (H := construct_live (set_username u init) w).
  unfold construct in *. simpl in *.
  apply (str_live (mkWorld (heap w ++ [set_username u init]) (db w)) _ _ H).
Qed.

(** The scenario of the specification: [str(User(username="alice"))]. *)
Example str_alice :
  ((let* self := construct (set_username "alice" (Mem.defaults 0)) in
    str self) Mem.empty).1 = inr "alice".
Proof. reflexivity. Qed.

(** C7: on every live instance, [__str__] called with no argument
    returns the username of the instance, raises nothing and leaves the
    whole state (the attributes of this instance, every other object,
    the database) as it found it; so does [str]. *)
Theorem str_method_pure `{F : Framework}
  (w : World DB) (self : nat) (o : User) :
  heap w !! self = Some o ->
  __str__ self [] w = (inr (PyStr (username o)), w)
  /\ str self w = (inr (username o), w).
Proof.
  intros H. split; [apply str_method_live|apply str_live]; exact H.
Qed.

Lemma str_method_pure_witness :
  let w := mkWorld [set_username "bob" (Mem.defaults 7)]
                   ([] : Mem.table_rows) in
  heap w !! 0%nat = Some (set_username "bob" (Mem.defaults 7))
  /\ __str__ 0%nat [] w = (inr (PyStr "bob"), w)
  /\ str 0%nat w = (inr "bob", w).
Proof.
  split; [reflexivity|].
  apply (str_method_pure (F := Mem.framework)
           (mkWorld [set_username "bob" (Mem.defaults 7)] [])
           0%nat (set_username "bob" (Mem.defaults 7))).
  reflexivity.
Defined.

(** C8: assigning any string [s] to the username of a live instance
    succeeds (nothing validates or normalises it), and [__str__] on the
    instance then returns [s] itself without raising; the empty string
    is no exception. *)
Theorem str_method_total `{F : Framework}
  (w : World DB) (self : nat) (o : User) (s : string) :
  heap w !! self = Some o ->
  (let* _ := setattr self (set_username s) in __str__ self []) w
  = (inr (PyStr s), mkWorld (<[self := set_username s o]> (heap w)) (db w)).
Proof.
  intros H. unfold bind at 1. unfold setattr. rewrite H.
  apply (str_method_live _ self (set_username s o)). simpl.
  apply list_lookup_insert_eq. eapply lookup_lt_Some. exact H.
Qed.

Lemma str_method_total_witness :
  let o := set_username "carol" (Mem.defaults 3) in
  let w := mkWorld [o] ([] : Mem.table_rows) in
  heap w !! 0%nat = Some o
  /\ (let* _ := setattr 0%nat (set_username EmptyString) in
      __str__ 0%nat []) w
     = (inr (PyStr EmptyString), mkWorld [set_username EmptyString o] []).
Proof.
  split; [reflexivity|].
  apply (str_method_total (F := Mem.framework)
           (mkWorld [set_username "carol" (Mem.defaults 3)] [])
           0%nat (set_username "carol" (Mem.defaults 3)) EmptyString).
  reflexivity.
Defined.

(** C9: the result of [__str__] depends on the username alone: on two
    live instances with the same username, in whatever two states and
    whatever their other attributes, it is the same. *)
Theorem str_method_username_only `{F : Framework}
  (w1 w2 : World DB) (self1 self2 : nat) (o1 o2 : User) :
  heap w1 !! self1 = Some o1 ->
  heap w2 !! self2 = Some o2 ->
  username o1 = username o2 ->
  (__str__ self1 [] w1).1 = (__str__ self2 [] w2).1.
Proof.
  intros H1 H2 Hu.
  rewrite (str_method_live w1 self1 o1 H1), (str_method_live w2 self2 o2 H2).
  simpl. rewrite Hu. reflexivity.
Qed.

Lemma str_method_username_only_witness :
  let o1 := mkUser (Some 3%Z) "x" None false [1%Z] [] "dave" "D"
                   EmptyString "d@a.org" false true 10 in
  let o2 := mkUser (Some 4%Z) "y" (Some 99%Z) true [] [2%Z; 3%Z] "dave"
                   EmptyString "E" EmptyString true false 20 in
  let w1 := mkWorld [o1] [("dd_users", (3%Z, o1))] in
  let w2 := mkWorld [o1; o2] [("dd_users", (4%Z, o2))] in
  heap w1 !! 0%nat = Some o1 /\ heap w2 !! 1%nat = Some o2
  /\ username o1 = username o2
  /\ (__str__ 0%nat [] w1).1 = (__str__ 1%nat [] w2).1.
Proof.
  cbv zeta. do 3 (split; [reflexivity|]).
  apply (str_method_username_only (F := Mem.framework)
           _ _ 0%nat 1%nat
           (mkUser (Some 3%Z) "x" None false [1%Z] [] "dave" "D"
                   EmptyString "d@a.org" false true 10)
           (mkUser (Some 4%Z) "y" (Some 99%Z) true [] [2%Z; 3%Z] "dave"
                   EmptyString "E" EmptyString true false 20));
    reflexivity.
Defined.

(** ** The table *)

Lemma default_db_table_User (app_label : string) :
  default_db_table app_label "User" = String.append app_label "_user".
Proof. reflexivity. Qed.

Lemma default_db_table_not_dd_users (app_label : string) :
  default_db_table app_label "User" <> "dd_users".
Proof.
  rewrite default_db_table_User.
  destruct app_label as [|a0 [|a1 [|a2 [|a3 s]]]]; simpl; try discriminate.
  destruct s as [|a4 [|a5 [|a6 [|a7 [|a8 s]]]]]; simpl; discriminate.
Qed.

(** C2: the table of [User] is the constant ['dd_users'] of [Meta], in
    whatever application the module is installed; it is not the name
    the framework would have chosen ("<app_label>_user"); every
    instance reaches the same name through its class, and saving,
    creating and loading all work on that table. *)
Theorem User_db_table_fixed `{F : Framework} (app_label : string) :
  User_db_table app_label = "dd_users"
  /\ default_db_table app_label "User" <> "dd_users"
  /\ (forall o1 o2 : User,
        instance_db_table app_label o1 = "dd_users"
        /\ instance_db_table app_label o2 = instance_db_table app_label o1)
  /\ User_save app_label = Model_save "dd_users" (unique_columns User_fields)
  /\ User_objects_create app_label
     = Manager_create "dd_users" (unique_columns User_fields)
  /\ User_objects_get app_label = Manager_get "dd_users".
Proof.
  split; [reflexivity|].
  split; [apply default_db_table_not_dd_users|].
  split; [intros o1 o2; split; reflexivity|].
  split; [reflexivity|]. split; reflexivity.
Qed.

(** In the application of the repository, [core], the framework's own
    name would have been [core_user]. *)
Example default_db_table_core : default_db_table "core" "User" = "core_user".
Proof. reflexivity. Qed.

(** ** The class statement against its base *)

Lemma bound_names_User `{F : Framework} :
  bound_names (User_namespace (DB := DB))
  = ["__module__"; "__qualname__"; "__doc__"; "Meta"; "__str__"].
Proof. reflexivity. Qed.

Lemma filter_all {A} (P : A -> Prop) `{forall x, Decision (P x)} (l : list A) :
  Forall P l -> filter P l = l.
Proof.
  induction 1 as [|x l Hx _ IH]; [reflexivity|].
  rewrite filter_cons, decide_True by exact Hx. rewrite IH. reflexivity.
Qed.

(** C4: the class body of [User] declares no field, and, the base
    having no field under one of the names the body binds, it takes
    over every field of [AbstractUser] as it is: the fields of [User]
    are those of a subclass of [AbstractUser] with an empty body. *)
Theorem User_adds_no_field `{F : Framework} :
  Forall (fun f => field_name f ∉
            ["__module__"; "__qualname__"; "__doc__"; "Meta"; "__str__"])
         AbstractUser_fields ->
  local_fields (User_namespace (DB := DB)) = []
  /\ inherited_fields (User_namespace (DB := DB)) AbstractUser_fields
     = AbstractUser_fields
  /\ User_fields = model_fields ([] : list (string * attr DB))
                                AbstractUser_fields.
Proof.
  intros H.
  assert (Hin : inherited_fields (User_namespace (DB := DB))
                  AbstractUser_fields = AbstractUser_fields).
  { unfold inherited_fields. rewrite bound_names_User.
    apply filter_all. exact H. }
  split; [reflexivity|]. split; [exact Hin|].
  unfold User_fields, model_fields. rewrite Hin.
  unfold inherited_fields, bound_names. simpl local_fields.
  rewrite (filter_all _ AbstractUser_fields); [reflexivity|].
  apply Forall_forall. intros f _. simpl. apply not_elem_of_nil.
Qed.

Lemma User_adds_no_field_witness :
  Forall (fun f => field_name f ∉
            ["__module__"; "__qualname__"; "__doc__"; "Meta"; "__str__"])
         Mem.fields
  /\ User_fields (F := Mem.framework) = auto_pk :: Mem.fields.
Proof.
  assert (H : Forall (fun f => field_name f ∉
                ["__module__"; "__qualname__"; "__doc__"; "Meta"; "__str__"])
              Mem.fields).
  { unfold Mem.fields. repeat constructor; simpl;
      intros Hin; repeat (apply elem_of_cons in Hin as [Hin|Hin];
                          [discriminate Hin|]); inversion Hin. }
  split; [exact H|].
  destruct (User_adds_no_field (F := Mem.framework) H) as (_ & _ & ->).
  reflexivity.
Defined.




Example save_through_the_class (self : nat) (w : World Mem.table_rows) :
  call_method (F := Mem.framework) User_getattr "save" self [] w
  = (let* _ := User_save (F := Mem.framework) "core" self in ret PyNone) w.
Proof. reflexivity. Qed.

Example get_short_name_through_the_class :
  call_method (F := Mem.framework) User_getattr "get_short_name" 0%nat []
    (mkWorld [mkUser (Some 1%Z) "pw" None false [] [] "lena" "Lena" "M"
                     "l@m.org" false true 8] [])
  = (inr (PyStr "Lena"),
     mkWorld [mkUser (Some 1%Z) "pw" None false [] [] "lena" "Lena" "M"
                     "l@m.org" false true 8] []).
Proof. reflexivity. Qed.

(** ** Persistence *)

Section Persistence.

Context {F : Framework} {C : Contract F}.

Lemma execute_ok {A} (stmt : DB -> exn + (A * DB)) (w w' : World DB) (a : A) :
  execute stmt w = (inr a, w') ->
  exists d, stmt (db w) = inr (a, d) /\ w' = mkWorld (heap w) d.
Proof.
  unfold execute. destruct (stmt (db w)) as [e|[a' d]]; [discriminate|].
  intros [= <- <-]. exists d. split; reflexivity.
Qed.

Lemma elem_of_with_pk (f : Field) (fs : list Field) :
  f ∈ fs -> f ∈ with_pk fs.
Proof.
  intros H. unfold with_pk. destruct (existsb primary_key fs); [exact H|].
  apply list_elem_of_further. exact H.
Qed.

(** The uniqueness of [username] reaches the table of [User]: the class
    body does not bind the name again. *)
Lemma username_unique_column : "username" ∈ unique_columns User_fields.
Proof.
  unfold unique_columns.
  apply (list_elem_of_fmap_2 field_name _ (mkField "username" false true)).
  apply list_elem_of_filter. split; [left; reflexivity|].
  unfold User_fields, model_fields. apply elem_of_with_pk.
  apply elem_of_app. left. unfold inherited_fields.
  apply list_elem_of_filter. split; [|apply username_unique].
  rewrite bound_names_User. simpl. intros Hin.
  repeat (apply elem_of_cons in Hin as [Hin|Hin]; [discriminate Hin|]).
  inversion Hin.
Qed.

Lemma Manager_create_ok (t : string) (uq : list string) (init : User)
  (w w1 : World DB) (self : nat) :
  Manager_create t uq init w = (inr self, w1) ->
  exists k d,
    db_insert t uq init (db w) = inr (k, d)
    /\ self = length (heap w)
    /\ w1 = mkWorld (heap w ++ [set_id (Some k) init]) d.
Proof.
  unfold Manager_create. unfold bind at 1. unfold construct at 1.
  unfold bind at 1. rewrite (deref_live _ (length (heap w)) init);
    [|apply list_lookup_middle; reflexivity].
  unfold bind at 1.
  destruct (execute _ _) as [[e|k] w'] eqn:Hx; [discriminate|].
  apply execute_ok in Hx as (d & Hd & ->). simpl in Hd.
  unfold bind, setattr. simpl.
  rewrite list_lookup_middle by reflexivity.
  intros [= <- <-]. exists k, d. split; [exact Hd|]. split; [reflexivity|].
  f_equal. rewrite insert_app_r_alt by reflexivity.
  rewrite Nat.sub_diag. reflexivity.
Qed.

Lemma Manager_create_duplicate (t : string) (uq : list string)
  (init row' : User) (c : string) (k : Z) (w : World DB) :
  c ∈ uq ->
  db_select t k (db w) = Some row' ->
  column c init <> PyNone ->
  column c row' = column c init ->
  Manager_create t uq init w
  = (inl IntegrityError, mkWorld (heap w ++ [init]) (db w)).
Proof.
  intros Hc Hs Hn He.
  unfold Manager_create. unfold bind at 1. unfold construct at 1.
  unfold bind at 1. rewrite (deref_live _ (length (heap w)) init);
    [|apply list_lookup_middle; reflexivity].
  unfold bind at 1. unfold execute. simpl.
  rewrite (insert_unique t uq init (db w) c k row' Hc Hs Hn He).
  reflexivity.
Qed.

End Persistence.

(** C3: under the contract of the framework (the base class declares
    [username] unique and the database enforces the constraint), when a
    creation of a [User] has succeeded, a second creation with the same
    username fails with [IntegrityError]; the database is left as the
    first creation left it, the row of the first creation is still
    there under its key, and the first instance is untouched. *)
Theorem second_create_same_username_fails `{F : Framework} {HC : Contract F}
  (app_label : string) (init1 init2 : User) (w w1 : World DB) (self1 : nat) :
  username init1 = username init2 ->
  User_objects_create app_label init1 w = (inr self1, w1) ->
  exists (w2 : World DB) (k : Z),
    User_objects_create app_label init2 w1 = (inl IntegrityError, w2)
    /\ db w2 = db w1
    /\ heap w1 !! self1 = Some (set_id (Some k) init1)
    /\ heap w2 !! self1 = Some (set_id (Some k) init1)
    /\ db_select (User_db_table app_label) k (db w2)
       = Some (set_id (Some k) init1).
Proof.
  intros Hu H1. unfold User_objects_create in *.
  apply Manager_create_ok in H1 as (k & d & Hins & -> & ->).
  assert (Hsel := select_insert _ _ _ _ _ _ Hins).
  exists (mkWorld ((heap w ++ [set_id (Some k) init1]) ++ [init2]) d), k.
  split.
  - apply (Manager_create_duplicate _ _ init2 (set_id (Some k) init1)
             "username" k (mkWorld (heap w ++ [set_id (Some k) init1]) d)).
    + apply username_unique_column.
    + exact Hsel.
    + discriminate.
    + unfold column. simpl. rewrite Hu. reflexivity.
  - split; [reflexivity|]. simpl.
    split; [apply list_lookup_middle; reflexivity|].
    split; [|exact Hsel].
    rewrite lookup_app_l.
    + apply list_lookup_middle. reflexivity.
    + rewrite length_app. simpl. lia.
Qed.

Lemma second_create_same_username_fails_witness :
  let init1 := set_username "alice" (Mem.defaults 0) in
  let init2 := mkUser None "pw" None true [] [] "alice" "A" "L" "a@l.org"
                      true true 5 in
  let row1 := set_id (Some 1%Z) init1 in
  let w1 := mkWorld [row1] [("dd_users", (1%Z, row1))] in
  username init1 = username init2
  /\ User_objects_create (F := Mem.framework) "core" init1 Mem.empty
     = (inr 0%nat, w1)
  /\ exists (w2 : World Mem.table_rows) (k : Z),
       User_objects_create (F := Mem.framework) "core" init2 w1
       = (inl IntegrityError, w2)
       /\ db w2 = db w1
       /\ heap w1 !! 0%nat = Some (set_id (Some k) init1)
       /\ heap w2 !! 0%nat = Some (set_id (Some k) init1)
       /\ Mem.select "dd_users" k (db w2) = Some (set_id (Some k) init1).
Proof.
  cbv zeta.
  split; [reflexivity|]. split; [reflexivity|].
  apply (second_create_same_username_fails (F := Mem.framework)
           (HC := Mem_contract) "core"
           (set_username "alice" (Mem.defaults 0))
           (mkUser None "pw" None true [] [] "alice" "A" "L" "a@l.org"
                   true true 5)
           Mem.empty _ 0%nat);
    reflexivity.
Defined.

(** C6: under the contract of the framework (the database stores a row
    as it is given, under the key it returns), when saving a live
    instance has succeeded, the instance has a key, and loading by that
    key yields a new instance whose username is the one the instance
    had when it was saved. *)
Theorem save_then_get_keeps_username `{F : Framework} {HC : Contract F}
  (app_label : string) (w w1 : World DB) (self : nat) (o : User) :
  heap w !! self = Some o ->
  User_save app_label self w = (inr tt, w1) ->
  exists (k : Z) (o1 o2 : User),
    heap w1 !! self = Some o1
    /\ id o1 = Some k
    /\ username o1 = username o
    /\ User_objects_get app_label k w1
       = (inr (length (heap w1)), mkWorld (heap w1 ++ [o2]) (db w1))
    /\ username o2 = username o.
Proof.
  intros Hl Hs. unfold User_save, Model_save in Hs.
  unfold bind at 1 in Hs. rewrite (deref_live w self o Hl) in Hs.
  unfold User_objects_get, Manager_get.
  destruct (id o) as [k|] eqn:Hid.
  - unfold bind at 1 in Hs.
    destruct (execute _ w) as [[e|hit] w'] eqn:Hx; [discriminate|].
    apply execute_ok in Hx as (d & Hd & ->).
    destruct hit.
    + injection Hs as <-. exists k, o, (set_id (Some k) o). simpl.
      rewrite (select_update _ _ _ _ _ _ Hd).
      repeat split; assumption || reflexivity.
    + unfold bind in Hs.
      destruct (execute _ _) as [[e|k'] w''] eqn:Hx'; [discriminate|].
      apply execute_ok in Hx' as (d' & Hd' & ->). simpl in Hd'.
      injection Hs as <-.
      assert (k' = k) as -> by exact (insert_keeps_id _ _ _ _ _ _ _ Hd' Hid).
      exists k, o, (set_id (Some k) o). simpl.
      rewrite (select_insert _ _ _ _ _ _ Hd').
      repeat split; assumption || reflexivity.
  - unfold bind in Hs.
    destruct (execute _ w) as [[e|k] w'] eqn:Hx; [discriminate|].
    apply execute_ok in Hx as (d & Hd & ->).
    unfold setattr in Hs. simpl in Hs. rewrite Hl in Hs.
    injection Hs as <-.
    exists k, (set_id (Some k) o), (set_id (Some k) o). simpl.
    rewrite (select_insert _ _ _ _ _ _ Hd).
    split; [|repeat split; reflexivity].
    apply list_lookup_insert_eq. eapply lookup_lt_Some. exact Hl.
Qed.

Lemma save_then_get_keeps_username_witness :
  let o := set_username "erin" (Mem.defaults 2) in
  let w := mkWorld [o] ([] : Mem.table_rows) in
  let row := set_id (Some 1%Z) o in
  let w1 := mkWorld [row] [("dd_users", (1%Z, row))] in
  heap w !! 0%nat = Some o
  /\ User_save (F := Mem.framework) "core" 0%nat w = (inr tt, w1)
  /\ exists (k : Z) (o1 o2 : User),
       heap w1 !! 0%nat = Some o1
       /\ id o1 = Some k
       /\ username o1 = username o
       /\ User_objects_get (F := Mem.framework) "core" k w1
          = (inr (length (heap w1)), mkWorld (heap w1 ++ [o2]) (db w1))
       /\ username o2 = username o.
Proof.
  cbv zeta.
  split; [reflexivity|]. split; [reflexivity|].
  apply (save_then_get_keeps_username (F := Mem.framework)
           (HC := Mem_contract) "core"
           (mkWorld [set_username "erin" (Mem.defaults 2)] [])
           (mkWorld
              [set_id (Some 1%Z) (set_username "erin" (Mem.defaults 2))]
              [("dd_users",
                (1%Z,
                 set_id (Some 1%Z) (set_username "erin" (Mem.defaults 2))))])
           0%nat
           (set_username "erin" (Mem.defaults 2)));
    reflexivity.
Defined.

(** ** How the string representation composes with the rest *)

Section Composition.

Context {F : Framework}.

(** Saving touches at most the key of the saved instance: every live
    object keeps its username, whether the statement succeeds or
    raises. *)
Lemma Model_save_usernames (t : string) (uq : list string) (self : nat)
  (w : World DB) (r : nat) (o : User) :
  heap w !! r = Some o ->
  exists o', heap (Model_save t uq self w).2 !! r = Some o'
             /\ username o' = username o.
Proof.
  intros Hr. unfold Model_save. unfold bind at 1. unfold deref.
  destruct (heap w !! self) as [os|] eqn:Hs; [|exists o; split; auto].
  destruct (id os) as [k|].
  - unfold bind at 1. unfold execute at 1.
    destruct (db_update t uq k os (db w)) as [e|[hit d]];
      [exists o; split; auto|].
    destruct hit; [exists o; split; auto|].
    unfold bind, execute. simpl.
    destruct (db_insert t uq os d) as [e|[k' d']]; exists o; split; auto.
  - unfold bind, execute.
    destruct (db_insert t uq os (db w)) as [e|[k d]];
      [exists o; split; auto|].
    unfold setattr. simpl. rewrite Hs. simpl.
    destruct (decide (self = r)) as [->|Hne].
    + exists (set_id (Some k) os). split.
      * apply list_lookup_insert_eq. eapply lookup_lt_Some. exact Hs.
      * rewrite Hs in Hr. injection Hr as ->. reflexivity.
    + exists o. split; [|reflexivity].
      rewrite list_lookup_insert_ne by exact Hne. exact Hr.
Qed.

End Composition.

(** X1: saving an instance never changes a string representation:
    after [self.save()], whether it succeeded or raised, [str] of every
    instance that was live before (the saved one included) still
    returns the username the instance had, and raises nothing. *)
Theorem save_preserves_str `{F : Framework}
  (app_label : string) (self r : nat) (w : World DB) (o : User) :
  heap w !! r = Some o ->
  str r (User_save app_label self w).2
  = (inr (username o), (User_save app_label self w).2).
Proof.
  intros Hr. unfold User_save.
  destruct (Model_save_usernames (User_db_table app_label)
              (unique_columns User_fields) self w r o Hr) as (o' & Ho' & <-).
  apply str_live. exact Ho'.
Qed.

Lemma save_preserves_str_witness :
  let o := set_username "frank" (Mem.defaults 4) in
  let w := mkWorld [o] ([] : Mem.table_rows) in
  heap w !! 0%nat = Some o
  /\ str (F := Mem.framework) 0%nat (User_save "core" 0%nat w).2
     = (inr (username o), (User_save "core" 0%nat w).2)
  /\ heap (User_save (F := Mem.framework) "core" 0%nat w).2
     = [set_id (Some 1%Z) o].
Proof.
  cbv zeta. split; [reflexivity|]. split; [|reflexivity].
  apply (save_preserves_str (F := Mem.framework) "core" 0%nat 0%nat
           (mkWorld [set_username "frank" (Mem.defaults 4)] [])
           (set_username "frank" (Mem.defaults 4))).
  reflexivity.
Defined.

(** X2: renaming one instance changes the string representation of
    that instance only: after [self.username = s], [str] of any other
    live instance returns the username that instance already had. *)
Theorem rename_leaves_other_instances `{F : Framework}
  (w : World DB) (self other : nat) (o o' : User) (s : string) :
  self <> other ->
  heap w !! self = Some o ->
  heap w !! other = Some o' ->
  (let* _ := setattr self (set_username s) in str other) w
  = (inr (username o'),
     mkWorld (<[self := set_username s o]> (heap w)) (db w)).
Proof.
  intros Hne Hs Ho. unfold bind at 1. unfold setattr. rewrite Hs.
  apply str_live. simpl.
  rewrite list_lookup_insert_ne by exact Hne. exact Ho.
Qed.

Lemma rename_leaves_other_instances_witness :
  let a := set_username "gina" (Mem.defaults 1) in
  let b := set_username "hank" (Mem.defaults 2) in
  let w := mkWorld [a; b] ([] : Mem.table_rows) in
  0%nat <> 1%nat
  /\ heap w !! 0%nat = Some a
  /\ heap w !! 1%nat = Some b
  /\ (let* _ := setattr 0%nat (set_username "zoe") in
      str (F := Mem.framework) 1%nat) w
     = (inr (username b),
        mkWorld (<[0%nat := set_username "zoe" a]> (heap w)) (db w)).
Proof.
  cbv zeta. split; [discriminate|]. do 2 (split; [reflexivity|]).
  apply (rename_leaves_other_instances (F := Mem.framework)
           (mkWorld [set_username "gina" (Mem.defaults 1);
                     set_username "hank" (Mem.defaults 2)] [])
           0%nat 1%nat
           (set_username "gina" (Mem.defaults 1))
           (set_username "hank" (Mem.defaults 2)) "zoe");
    [discriminate|reflexivity|reflexivity].
Defined.

Section Stored.

Context {F : Framework} {C : Contract F}.

(** A successful save leaves the instance with a key and the row of
    the instance in the table, under that key. *)
Lemma Model_save_stored (t : string) (uq : list string) (self : nat)
  (w w1 : World DB) (o : User) :
  heap w !! self = Some o ->
  Model_save t uq self w = (inr tt, w1) ->
  exists k o1,
    heap w1 !! self = Some o1 /\ id o1 = Some k
    /\ db_select t k (db w1) = Some (set_id (Some k) o).
Proof.
  intros Hl Hs. unfold Model_save in Hs.
  unfold bind at 1 in Hs. rewrite (deref_live w self o Hl) in Hs.
  destruct (id o) as [k|] eqn:Hid.
  - unfold bind at 1 in Hs.
    destruct (execute _ w) as [[e|hit] w'] eqn:Hx; [discriminate|].
    apply execute_ok in Hx as (d & Hd & ->).
    destruct hit.
    + injection Hs as <-. exists k, o. simpl.
      split; [exact Hl|]. split; [exact Hid|].
      exact (select_update _ _ _ _ _ _ Hd).
    + unfold bind in Hs.
      destruct (execute _ _) as [[e|k'] w''] eqn:Hx'; [discriminate|].
      apply execute_ok in Hx' as (d' & Hd' & ->). simpl in Hd'.
      injection Hs as <-.
      assert (k' = k) as -> by exact (insert_keeps_id _ _ _ _ _ _ _ Hd' Hid).
      exists k, o. simpl. split; [exact Hl|]. split; [exact Hid|].
      exact (select_insert _ _ _ _ _ _ Hd').
  - unfold bind in Hs.
    destruct (execute _ w) as [[e|k] w'] eqn:Hx; [discriminate|].
    apply execute_ok in Hx as (d & Hd & ->).
    unfold setattr in Hs. simpl in Hs. rewrite Hl in Hs.
    injection Hs as <-. exists k, (set_id (Some k) o). simpl.
    split; [|split; [reflexivity|exact (select_insert _ _ _ _ _ _ Hd)]].
    apply list_lookup_insert_eq. eapply lookup_lt_Some. exact Hl.
Qed.

End Stored.

(** X3: the string representation survives the database: under the
    contract of the framework, after a successful [self.save()], the
    instance has a key [k], and [str(User.objects.get(pk=k))] returns
    what [str(self)] returned before the save. *)
Theorem str_of_reloaded_User `{F : Framework} {HC : Contract F}
  (app_label : string) (w w1 : World DB) (self : nat) (o : User) :
  heap w !! self = Some o ->
  User_save app_label self w = (inr tt, w1) ->
  exists k : Z,
    getattr self id w1 = (inr (Some k), w1)
    /\ ((let* r := User_objects_get app_label k in str r) w1).1
       = (str self w).1.
Proof.
  intros Hl Hs.
  destruct (Model_save_stored _ _ _ _ _ _ Hl Hs) as (k & o1 & H1 & Hk & Hsel).
  exists k. split.
  - rewrite (getattr_live w1 self o1 id H1), Hk. reflexivity.
  - rewrite (str_live w self o Hl).
    unfold bind, User_objects_get, Manager_get. rewrite Hsel.
    assert (Hn := construct_live (set_id (Some k) o) w1).
    unfold construct in *. simpl in Hn.
    rewrite (str_live (mkWorld (heap w1 ++ [set_id (Some k) o]) (db w1))
               _ _ Hn).
    reflexivity.
Qed.

Lemma str_of_reloaded_User_witness :
  let o := set_username "ivy" (Mem.defaults 6) in
  let w := mkWorld [o] ([] : Mem.table_rows) in
  let row := set_id (Some 1%Z) o in
  let w1 := mkWorld [row] [("dd_users", (1%Z, row))] in
  heap w !! 0%nat = Some o
  /\ User_save (F := Mem.framework) "core" 0%nat w = (inr tt, w1)
  /\ exists k : Z,
       getattr 0%nat id w1 = (inr (Some k), w1)
       /\ ((let* r := User_objects_get (F := Mem.framework) "core" k in
            str r) w1).1
          = (str (F := Mem.framework) 0%nat w).1.
Proof.
  cbv zeta. split; [reflexivity|]. split; [reflexivity|].
  apply (str_of_reloaded_User (F := Mem.framework) (HC := Mem_contract)
           "core"
           (mkWorld [set_username "ivy" (Mem.defaults 6)] [])
           (mkWorld
              [set_id (Some 1%Z) (set_username "ivy" (Mem.defaults 6))]
              [("dd_users",
                (1%Z,
                 set_id (Some 1%Z) (set_username "ivy" (Mem.defaults 6))))])
           0%nat (set_username "ivy" (Mem.defaults 6)));
    reflexivity.
Defined.

(** X4: the string representation tells stored users apart: under the
    contract of the framework, when a row is stored in the table of
    [User] and the creation of a new user succeeds, [str] of the new
    instance returns its username, and that differs from the username
    of the stored row. *)
Theorem str_of_created_User_is_new `{F : Framework} {HC : Contract F}
  (app_label : string) (init row : User) (k : Z) (w w1 : World DB)
  (self : nat) :
  db_select (User_db_table app_label) k (db w) = Some row ->
  User_objects_create app_label init w = (inr self, w1) ->
  str self w1 = (inr (username init), w1)
  /\ username init <> username row.
Proof.
  intros Hsel Hc. unfold User_objects_create in Hc.
  apply Manager_create_ok in Hc as (k' & d & Hins & -> & ->).
  split.
  - apply (str_live (mkWorld (heap w ++ [set_id (Some k') init]) d)
             (length (heap w)) (set_id (Some k') init)).
    simpl. apply list_lookup_middle. reflexivity.
  - intros Hu.
    rewrite (insert_unique _ (unique_columns User_fields) init (db w)
               "username" k row username_unique_column Hsel) in Hins.
    + discriminate.
    + discriminate.
    + unfold column. simpl. rewrite Hu. reflexivity.
Qed.

Lemma str_of_created_User_is_new_witness :
  let row := set_id (Some 1%Z) (set_username "jack" (Mem.defaults 0)) in
  let init := set_username "kate" (Mem.defaults 9) in
  let w := mkWorld [] [("dd_users", (1%Z, row))] in
  let w1 := mkWorld [set_id (Some 2%Z) init]
                    [("dd_users", (2%Z, set_id (Some 2%Z) init));
                     ("dd_users", (1%Z, row))] in
  Mem.select "dd_users" 1%Z (db w) = Some row
  /\ User_objects_create (F := Mem.framework) "core" init w = (inr 0%nat, w1)
  /\ str (F := Mem.framework) 0%nat w1 = (inr (username init), w1)
  /\ username init <> username row.
Proof.
  cbv zeta. split; [reflexivity|]. split; [reflexivity|].
  apply (str_of_created_User_is_new (F := Mem.framework)
           (HC := Mem_contract) "core"
           (set_username "kate" (Mem.defaults 9))
           (set_id (Some 1%Z) (set_username "jack" (Mem.defaults 0)))
           1%Z
           (mkWorld []
              [("dd_users",
                (1%Z,
                 set_id (Some 1%Z) (set_username "jack" (Mem.defaults 0))))])
           _ 0%nat);
    reflexivity.
Defined.

(** ** More on the class statement *)

(** X5: no operation of the base class is lost on [User]: a name that
    the base class binds to a function, and that is none of the four
    names the class statement binds to something else
    ([__module__], [__qualname__], [__doc__], [Meta]), is bound to a
    function on [User] as well, the function of the base class itself
    unless the name is [__str__]; a call through [User] therefore never
    ends in the [AttributeError] or [TypeError] of a failed lookup. *)
Theorem User_keeps_base_operations `{F : Framework}
  (name : string) (f : method DB) :
  AbstractUser_getattr name = Some (Function f) ->
  name ∉ ["__module__"; "__qualname__"; "__doc__"; "Meta"] ->
  exists g : method DB,
    User_getattr name = Some (Function g)
    /\ (name <> "__str__" -> g = f)
    /\ forall (self : nat) (args : list pyval) (w : World DB),
         call_method User_getattr name self args w = g self args w.
Proof.
  intros Hb Hn.
  destruct (decide (name = "__str__")) as [->|Hs].
  - exists __str__. split; [reflexivity|].
    split; [intros H; contradiction|]. intros self args w. reflexivity.
  - exists f.
    assert (E : User_getattr name = Some (Function f)).
    { unfold User_getattr, class_getattr, User_namespace. simpl.
      do 4 (rewrite decide_False;
            [|intros <-; apply Hn; repeat constructor]).
      rewrite decide_False by (intros <-; apply Hs; reflexivity).
      exact Hb. }
    split; [exact E|]. split; [reflexivity|].
    intros self args w. unfold call_method. rewrite E. reflexivity.
Qed.

Lemma User_keeps_base_operations_witness :
  AbstractUser_getattr (Framework := Mem.framework) "get_username"
  = Some (Function Mem.get_username)
  /\ ("get_username" ∉ ["__module__"; "__qualname__"; "__doc__"; "Meta"])
  /\ exists g : method Mem.table_rows,
       User_getattr (F := Mem.framework) "get_username" = Some (Function g)
       /\ ("get_username" <> "__str__" -> g = Mem.get_username)
       /\ forall (self : nat) (args : list pyval)
                 (w : World Mem.table_rows),
            call_method (F := Mem.framework) User_getattr "get_username"
                        self args w
            = g self args w.
Proof.
  assert (H : "get_username" ∉
              ["__module__"; "__qualname__"; "__doc__"; "Meta"]).
  { intros Hin; repeat (apply elem_of_cons in Hin as [Hin|Hin];
                        [discriminate Hin|]); inversion Hin. }
  split; [reflexivity|]. split; [exact H|].
  exact (User_keeps_base_operations (F := Mem.framework) "get_username"
           Mem.get_username eq_refl H).
Defined.
